(** * pkg/tsdb/prometheus/prometheus.go: instance factory, query dispatch
      and API-error classification

    A shallow embedding of the Go file.  Go values keep their Go shape:
    - a function returning [(T, error)] returns a pair, the second component
      being [None] for Go's [nil] error;
    - a pointer or an interface value that may be [nil] is an [option];
    - [map[string]interface{}] is a [gmap string JSONValue];
    - calls that leave the package and touch the outside world
      ([client.Create], [s.im.Get], [s.executeTimeSeriesQuery]) run in a
      small state monad that threads the outside world and records every
      such call, in order. *)

From Stdlib Require Import ZArith QArith Strings.Byte.
From stdpp Require Import base strings list gmap.

Set Warnings "-register-all".
#[local] Open Scope string_scope.

(* ===================================================================== *)
(** ** Go error values *)
(* ===================================================================== *)

(** [apiv1.Error] of prometheus/client_golang: the structured error the
    query API reports.  [Type_] is its [ErrorType] (a string type). *)
Record apiv1_Error : Type := {
  Type_ : string;
  Msg : string;
  Detail : string
}.

(** The dynamic values an [error] interface holds here.  [errorString] is
    what [errors.New] and a [fmt.Errorf] without [%w] build, [wrapError] is
    what [fmt.Errorf] with one [%w] builds ([msg] is the whole formatted
    text, [err] is what [Unwrap] returns), [apiError] is a non-nil
    [*apiv1.Error].  [opaqueError] and [causeError] stand for every other
    concrete error type, named by [typ]: one without an [Unwrap] method
    (a DNS failure, [context.DeadlineExceeded]) and one with
    ([*url.Error], [*net.OpError]).  No type in a chain defines an [As]
    method of its own. *)
Inductive errval : Type :=
  | errorString (s : string)
  | wrapError (msg : string) (err : errval)
  | apiError (e : apiv1_Error)
  | opaqueError (typ : string) (text : string)
  | causeError (typ : string) (text : string) (cause : errval).

(** Go's [error]: an interface value, [None] when it is [nil]. *)
Definition error : Type := option errval.

(** [fmt.Sprintf("%s: %s", a, b)]. *)
Definition Sprintf_s_colon_s (a b : string) : string := a +:+ ": " +:+ b.

(** The [Error()] method.  For [*apiv1.Error] it is
    [fmt.Sprintf("%s: %s", e.Type, e.Msg)]. *)
Definition Error_text (e : errval) : string :=
  match e with
  | errorString s => s
  | wrapError msg _ => msg
  | apiError a => Sprintf_s_colon_s (Type_ a) (Msg a)
  | opaqueError _ text => text
  | causeError _ text _ => text
  end.

(** [errors.New(s)]. *)
Definition errors_New (s : string) : error := Some (errorString s).

(** [fmt.Errorf(prefix + "%w", err)] for a non-nil [err]. *)
Definition Errorf_w (prefix : string) (err : errval) : error :=
  Some (wrapError (prefix +:+ Error_text err) err).

(** [errors.Unwrap]. *)
Definition errors_Unwrap (e : errval) : error :=
  match e with
  | wrapError _ err => Some err
  | causeError _ _ cause => Some cause
  | errorString _ | apiError _ | opaqueError _ _ => None
  end.

(** [errors.As(err, &e)] with [var e *apiv1.Error]: the loop
    [for err != nil { if err is a *apiv1.Error { *target = err; return true };
    err = Unwrap(err) }; return false].  [Some a] is [true] with [e]
    pointing at [a]; [None] is [false] with [e] left [nil]. *)
Fixpoint errors_As_val (e : errval) : option apiv1_Error :=
  match e with
  | apiError a => Some a
  | wrapError _ err => errors_As_val err
  | causeError _ _ cause => errors_As_val cause
  | errorString _ | opaqueError _ _ => None
  end.

Definition errors_As (err : error) : option apiv1_Error :=
  match err with
  | None => None
  | Some e => errors_As_val e
  end.

(** IsAPIError returns whether err is or wraps a Prometheus error. *)
Definition IsAPIError (err : error) : bool :=
  match errors_As err with
  | Some _ => true
  | None => false
  end.

Definition ConvertAPIError (err : error) : error :=
  match errors_As err with
  | Some e => errors_New (Sprintf_s_colon_s (Msg e) (Detail e))
  | None => err
  end.

(** *** The wrapped-error chain, as a specification device

    [chain e] lists [e], [Unwrap(e)], [Unwrap(Unwrap(e))], ... up to the
    first error that unwraps to [nil]. *)
Fixpoint chain (e : errval) : list errval :=
  e :: match e with
       | wrapError _ err => chain err
       | causeError _ _ cause => chain cause
       | errorString _ | apiError _ | opaqueError _ _ => []
       end.

Definition error_chain (err : error) : list errval :=
  match err with
  | None => []
  | Some e => chain e
  end.

(** [err]'s chain holds the structured API error [a]. *)
Definition chain_has_api (err : error) (a : apiv1_Error) : Prop :=
  apiError a ∈ error_chain err.

(** The text an [error] prints, [None] for [nil]. *)
Definition error_text (err : error) : option string := Error_text <$> err.

(* ===================================================================== *)
(** ** Values decoded from JSON, and the plugin SDK's request types *)
(* ===================================================================== *)

(** What [encoding/json] stores in an [interface{}]: [nil], [bool],
    [float64] (a finite one, hence a rational), [string],
    [[]interface{}] and [map[string]interface{}]. *)
Inductive JSONValue : Type :=
  | JNull
  | JBool (b : bool)
  | JNumber (f : Q)
  | JString (s : string)
  | JArray (l : list JSONValue)
  | JObject (m : gmap string JSONValue).

(** [v != nil] for an [interface{}] read from decoded JSON. *)
Definition not_nil (v : JSONValue) : bool :=
  match v with
  | JNull => false
  | _ => true
  end.

(** The comma-ok type assertion [v.(string)]: the string and [true], or
    the zero value and [false]. *)
Definition assert_string (v : JSONValue) : string * bool :=
  match v with
  | JString s => (s, true)
  | _ => ("", false)
  end.

(** Indexing a [map[string]interface{}]: a missing key reads as [nil]. *)
Definition map_index (m : gmap string JSONValue) (k : string) : JSONValue :=
  default JNull (m !! k).

Module backend.

(** [backend.DataSourceInstanceSettings]: the fields this package reads,
    and the two that [HTTPClientOptions] decodes. *)
Record DataSourceInstanceSettings : Type := {
  ID : Z;
  Name : string;
  URL : string;
  JSONData : list byte;
  DecryptedSecureJSONData : gmap string string
}.

(** [backend.PluginContext]; [DataSourceInstanceSettings] is a pointer. *)
Record PluginContext : Type := {
  OrgID : Z;
  PluginID : string;
  DataSourceInstance : option DataSourceInstanceSettings
}.

(** [backend.DataQuery]. *)
Record DataQuery : Type := {
  RefID : string;
  QueryType : string;
  MaxDataPoints : Z;
  Interval : Z;
  JSON : list byte
}.

(** [backend.QueryDataRequest]. *)
Record QueryDataRequest : Type := {
  PluginCtx : PluginContext;
  Headers : gmap string string;
  Queries : list DataQuery
}.

End backend.

Module sdkhttpclient.

(** [sigv4.Config], the signed-request block of the HTTP client options. *)
Record SigV4Config : Type := {
  AuthType : string;
  Profile : string;
  Service : string;
  AccessKey : string;
  SecretKey : string;
  AssumeRoleARN : string;
  ExternalID : string;
  Region : string
}.

Record BasicAuthOptions : Type := {
  User : string;
  Password : string
}.

(** [httpclient.Options] of the SDK: the data fields.  [BasicAuth] and
    [SigV4] are pointers. *)
Record Options : Type := {
  BasicAuth : option BasicAuthOptions;
  SigV4 : option SigV4Config;
  Headers : gmap string string;
  Labels : gmap string string;
  CustomOptions : gmap string JSONValue
}.

(** The assignment [c.Service = v] on the block a pointer refers to. *)
Definition set_Service (c : SigV4Config) (v : string) : SigV4Config :=
  {| AuthType := AuthType c; Profile := Profile c; Service := v;
     AccessKey := AccessKey c; SecretKey := SecretKey c;
     AssumeRoleARN := AssumeRoleARN c; ExternalID := ExternalID c;
     Region := Region c |}.

(** [o] with its [SigV4] pointer referring to block [c]. *)
Definition with_SigV4 (o : Options) (c : SigV4Config) : Options :=
  {| BasicAuth := BasicAuth o; SigV4 := Some c; Headers := Headers o;
     Labels := Labels o; CustomOptions := CustomOptions o |}.

End sdkhttpclient.

(* ===================================================================== *)
(** ** What the file calls outside itself *)
(* ===================================================================== *)

(** The collaborators of this file, none of them defined in it:
    [encoding/json], the SDK's [HTTPClientOptions], the package's
    [client.Create], and the method [executeTimeSeriesQuery] of the sibling
    file.  The last two act on the outside world (HTTP clients, the
    network), which is the abstract [World].  Each collaborator is given by
    what it returns; a panic raised inside one of them is not modelled, so
    a statement about a run holds for the runs on which the collaborators
    return, and says so through a hypothesis that names their answers or
    the returned result. *)
Class Externals : Type := {
  World : Type;
  (** [apiv1.API], the query client *)
  Client : Type;
  (** [httpclient.Provider] *)
  Provider : Type;
  (** [context.Context] *)
  context_Context : Type;
  (** [intervalv2.Calculator] *)
  Calculator : Type;
  (** [backend.DataResponse] *)
  DataResponse : Type;
  (** [json.Unmarshal(data, &v)] for [v] a [map[string]interface{}]: the
      map afterwards and the error. *)
  json_Unmarshal :
    list byte → gmap string JSONValue → gmap string JSONValue * error;
  (** [settings.HTTPClientOptions()]. *)
  HTTPClientOptions :
    backend.DataSourceInstanceSettings → sdkhttpclient.Options * error;
  (** [client.Create(url, httpOpts, clientProvider, jsonData, plog)]. *)
  client_Create :
    string → sdkhttpclient.Options → Provider → gmap string JSONValue →
    World → (option Client * error) * World
}.

(* ===================================================================== *)
(** ** The package's own types and its effects *)
(* ===================================================================== *)

Section Model.
Context `{Ext : Externals}.

(** [DatasourceInfo] (declared in the sibling file, built here). *)
Record DatasourceInfo : Type := {
  ID : Z;
  URL : string;
  TimeInterval : string;
  promClient : option Client
}.

(** [backend.QueryDataResponse]; the zero value [QueryDataResponse{}] has
    no responses. *)
Record QueryDataResponse : Type := {
  Responses : gmap string DataResponse
}.

(** [instancemgmt.Instance] is [interface{}]: [nil], or the
    [DatasourceInfo] value the factory of this package builds. *)
Definition Instance : Type := option DatasourceInfo.

(** [instancemgmt.InstanceManager], the interface behind [s.im]. *)
Record InstanceManager : Type := {
  Get : backend.PluginContext → World → (Instance * error) * World
}.

Record Service : Type := {
  intervalCalculator : Calculator;
  im : InstanceManager
}.

(** The method [s.executeTimeSeriesQuery(ctx, req, dsInfo)] of [Service],
    defined in the sibling file; [dsInfo] is a pointer. *)
Class TimeSeriesQuery : Type := {
  executeTimeSeriesQuery :
    Service → context_Context → backend.QueryDataRequest → option DatasourceInfo →
    World → (option QueryDataResponse * error) * World
}.
Context `{TSQ : TimeSeriesQuery}.

(** One record per call that leaves the file for the outside world. *)
Inductive Call : Type :=
  | call_client_Create (url : string) (httpOpts : sdkhttpclient.Options)
                       (jsonData : gmap string JSONValue)
  | call_im_Get (pluginCtx : backend.PluginContext)
  | call_executeTimeSeriesQuery (req : backend.QueryDataRequest)
                                (dsInfo : option DatasourceInfo).

Record State : Type := {
  world : World;
  calls : list Call
}.

(** A Go call either returns or panics. *)
Inductive outcome (A : Type) : Type :=
  | Returns (a : A)
  | Panics (msg : string).
#[global] Arguments Returns {A} a.
#[global] Arguments Panics {A} msg.

Definition M (A : Type) : Type := State → outcome A * State.

Definition ret {A} (a : A) : M A := fun st => (Returns a, st).

Definition panic {A} (msg : string) : M A := fun st => (Panics msg, st).

Definition bind {A B} (m : M A) (k : A → M B) : M B :=
  fun st =>
    match m st with
    | (Returns a, st') => k a st'
    | (Panics msg, st') => (Panics msg, st')
    end.

(** Run [f] on the outside world and record the call [c]. *)
Definition extern {A} (c : Call) (f : World → A * World) : M A :=
  fun st =>
    let '(a, w) := f (world st) in
    (Returns a, {| world := w; calls := calls st ++ [c] |}).

End Model.

Declare Scope go_scope.
Delimit Scope go_scope with go.
Notation "'do' p <- m ;; k" := (bind m (fun p => k))
  (at level 100, p pattern, m at next level, right associativity) : go_scope.

Section Program.
Context `{Ext : Externals} `{TSQ : !TimeSeriesQuery}.
#[local] Open Scope go_scope.

Definition do_client_Create (url : string) (httpOpts : sdkhttpclient.Options)
    (clientProvider : Provider) (jsonData : gmap string JSONValue)
    : M (option Client * error) :=
  extern (call_client_Create url httpOpts jsonData)
         (client_Create url httpOpts clientProvider jsonData).

Definition do_im_Get (s : Service) (pluginCtx : backend.PluginContext)
    : M (Instance * error) :=
  extern (call_im_Get pluginCtx) (Get (im s) pluginCtx).

Definition do_executeTimeSeriesQuery (s : Service) (ctx : context_Context)
    (req : backend.QueryDataRequest) (dsInfo : option DatasourceInfo)
    : M (option QueryDataResponse * error) :=
  extern (call_executeTimeSeriesQuery req dsInfo)
         (executeTimeSeriesQuery s ctx req dsInfo).

(** The closure [newInstanceSettings(httpClientProvider)] returns, applied
    to [settings]. *)
Definition newInstanceSettings (httpClientProvider : Provider)
    (settings : backend.DataSourceInstanceSettings) : M (Instance * error) :=
  let jsonData : gmap string JSONValue := ∅ in
  let '(jsonData, err) := json_Unmarshal (backend.JSONData settings) jsonData in
  match err with
  | Some err => ret (None, Errorf_w "error reading settings: " err)
  | None =>
  let '(httpCliOpts, err) := HTTPClientOptions settings in
  match err with
  | Some err => ret (None, Errorf_w "error getting http options: " err)
  | None =>
  (* Set SigV4 service namespace *)
  let httpCliOpts :=
    match sdkhttpclient.SigV4 httpCliOpts with
    | Some sigv4 =>
        sdkhttpclient.with_SigV4 httpCliOpts
          (sdkhttpclient.set_Service sigv4 "aps")
    | None => httpCliOpts
    end in
  (* what follows the time-interval step, given its result *)
  let rest (timeInterval : string) : M (Instance * error) :=
    do (client, err) <- do_client_Create (backend.URL settings) httpCliOpts
                        httpClientProvider jsonData ;;
    match err with
    | Some err => ret (None, Some err)
    | None =>
        let mdl := {| ID := backend.ID settings;
                      URL := backend.URL settings;
                      TimeInterval := timeInterval;
                      promClient := client |} in
        ret (Some mdl, None)
    end in
  (* timeInterval can be a string or can be missing.
     if it is missing, we set it to empty-string *)
  let timeInterval := "" in
  let timeIntervalJson := map_index jsonData "timeInterval" in
  if not_nil timeIntervalJson then
    (* if it is not nil, it must be a string *)
    let '(timeInterval, ok) := assert_string timeIntervalJson in
    if negb ok then ret (None, errors_New "invalid time-interval provided")
    else rest timeInterval
  else rest timeInterval
  end
  end.

Definition getDSInfo (s : Service) (pluginCtx : backend.PluginContext)
    : M (option DatasourceInfo * error) :=
  do (i, err) <- do_im_Get s pluginCtx ;;
  match err with
  | Some err => ret (None, Some err)
  | None =>
      (* instance := i.(DatasourceInfo): panics on a nil interface *)
      match i with
      | None =>
          panic "interface conversion: interface {} is nil, not prometheus.DatasourceInfo"
      | Some instance => ret (Some instance, None)
      end
  end.

Definition QueryData (s : Service) (ctx : context_Context)
    (req : backend.QueryDataRequest)
    : M (option QueryDataResponse * error) :=
  if (length (backend.Queries req) =? 0)%nat then
    ret (Some {| Responses := ∅ |}, errors_New "query contains no queries")
  else
  match backend.Queries req !! 0%nat with
  | None => panic "index out of range [0] with length 0"
  | Some q =>
  do (dsInfo, err) <- getDSInfo s (backend.PluginCtx req) ;;
  match err with
  | Some err => ret (None, Some err)
  | None =>
      do (result, err) <-
        (if decide (backend.QueryType q = "timeSeriesQuery")
         then (* fallthrough *) do_executeTimeSeriesQuery s ctx req dsInfo
         else (* default *) do_executeTimeSeriesQuery s ctx req dsInfo) ;;
      ret (result, err)
  end
  end.

End Program.

(* ===================================================================== *)
(** ** A small concrete environment, for the examples *)
(* ===================================================================== *)

Module Demo.

Definition quote : list byte := [x22].
Definition txt (s : string) : list byte := String.list_byte_of_string s.

(** The documents [{}], [{"timeInterval":"15s"}], [{"timeInterval":5}]
    and [{"timeInterval":null}]. *)
Definition doc_empty : list byte := txt "{}".
Definition doc_key : list byte :=
  txt "{" ++ quote ++ txt "timeInterval" ++ quote ++ txt ":".
Definition doc_interval_15s : list byte :=
  doc_key ++ quote ++ txt "15s" ++ quote ++ txt "}".
Definition doc_interval_5 : list byte := doc_key ++ txt "5}".
Definition doc_interval_null : list byte := doc_key ++ txt "null}".

Definition same_bytes (a b : list byte) : bool :=
  bool_decide (String.string_of_list_byte a = String.string_of_list_byte b).

(** [json.Unmarshal] on the four documents above; any other input is
    reported as a syntax error. *)
Definition unmarshal (data : list byte) (v : gmap string JSONValue)
    : gmap string JSONValue * error :=
  if same_bytes data doc_empty then (v, None)
  else if same_bytes data doc_interval_15s
  then (<["timeInterval" := JString "15s"]> v, None)
  else if same_bytes data doc_interval_5
  then (<["timeInterval" := JNumber 5]> v, None)
  else if same_bytes data doc_interval_null
  then (<["timeInterval" := JNull]> v, None)
  else (v, Some (opaqueError "*json.SyntaxError"
                             "unexpected end of JSON input")).

(** HTTP options with a signed-request block exactly when the secure
    settings hold a [sigV4SecretKey]; the host's service name is [es]. *)
Definition httpClientOptions (settings : backend.DataSourceInstanceSettings)
    : sdkhttpclient.Options * error :=
  ({| sdkhttpclient.BasicAuth := None;
      sdkhttpclient.SigV4 :=
        match backend.DecryptedSecureJSONData settings !! "sigV4SecretKey" with
        | Some k =>
            Some {| sdkhttpclient.AuthType := "keys";
                    sdkhttpclient.Profile := "";
                    sdkhttpclient.Service := "es";
                    sdkhttpclient.AccessKey := "AKIDEXAMPLE";
                    sdkhttpclient.SecretKey := k;
                    sdkhttpclient.AssumeRoleARN := "";
                    sdkhttpclient.ExternalID := "";
                    sdkhttpclient.Region := "eu-west-1" |}
        | None => None
        end;
      sdkhttpclient.Headers := ∅;
      sdkhttpclient.Labels := ∅;
      sdkhttpclient.CustomOptions := ∅ |}, None).

(** The world counts the clients built so far; a client is the URL it is
    bound to; building one for an empty URL fails. *)
Definition create (url : string) (httpOpts : sdkhttpclient.Options)
    (clientProvider : unit) (jsonData : gmap string JSONValue) (w : nat)
    : (option string * error) * nat :=
  if bool_decide (url = "") then ((None, errors_New "no URL specified"), w)
  else ((Some url, None), S w).

#[local] Instance ext : Externals := {|
  World := nat;
  Client := string;
  Provider := unit;
  context_Context := unit;
  Calculator := unit;
  DataResponse := unit;
  json_Unmarshal := unmarshal;
  HTTPClientOptions := httpClientOptions;
  client_Create := create
|}.

(** The time-series path answers every request with one empty response. *)
#[local] Instance tsq : TimeSeriesQuery := {|
  executeTimeSeriesQuery := fun _ _ _ _ w =>
    ((Some {| Responses := {[ "A" := tt ]} |}, None), w)
|}.

(** An instance manager without a cache: every [Get] runs the factory. *)
Definition uncached : InstanceManager := {|
  Get := fun pluginCtx w =>
    match backend.DataSourceInstance pluginCtx with
    | None =>
        ((None, errors_New "data source instance settings cannot be nil"), w)
    | Some settings =>
        match newInstanceSettings tt settings {| world := w; calls := [] |} with
        | (Returns r, st) => (r, world st)
        | (Panics msg, st) => ((None, errors_New msg), world st)
        end
    end
|}.

Definition service : Service := {| intervalCalculator := tt; im := uncached |}.

Definition state (w : nat) (cs : list Call) : State :=
  {| world := w; calls := cs |}.

Definition st0 : State := state 0 [].

Definition ds (url : string) (data : list byte) (secure : gmap string string)
    : backend.DataSourceInstanceSettings :=
  {| backend.ID := 7; backend.Name := "prom"; backend.URL := url;
     backend.JSONData := data; backend.DecryptedSecureJSONData := secure |}.

Definition ds_plain := ds "http://localhost:9090" doc_empty ∅.
Definition ds_null := ds "http://localhost:9090" doc_interval_null ∅.
Definition ds_15s := ds "http://localhost:9090" doc_interval_15s ∅.
Definition ds_bad_interval := ds "http://localhost:9090" doc_interval_5 ∅.
Definition ds_sigv4 :=
  ds "https://aps-workspaces.eu-west-1.amazonaws.com" doc_empty
     {[ "sigV4SecretKey" := "secret" ]}.
Definition ds_no_url := ds "" doc_empty ∅.

Definition ctx_of (settings : option backend.DataSourceInstanceSettings)
    : backend.PluginContext :=
  {| backend.OrgID := 1; backend.PluginID := "prometheus";
     backend.DataSourceInstance := settings |}.

Definition query (refID queryType : string) : backend.DataQuery :=
  {| backend.RefID := refID; backend.QueryType := queryType;
     backend.MaxDataPoints := 100; backend.Interval := 15000;
     backend.JSON := doc_empty |}.

Definition request (settings : option backend.DataSourceInstanceSettings)
    (qs : list backend.DataQuery) : backend.QueryDataRequest :=
  {| backend.PluginCtx := ctx_of settings; backend.Headers := ∅;
     backend.Queries := qs |}.

(** The structured error of the scenario, wrapped once, and a plain
    timeout of the transport. *)
Definition bad_data : apiv1_Error :=
  {| Type_ := "bad_data"; Msg := "bad_data"; Detail := "invalid expression" |}.

Definition wrapped_bad_data : error :=
  Some (wrapError "query failed: bad_data: bad_data" (apiError bad_data)).

Definition network_timeout : error :=
  Some (causeError "*url.Error"
          "Post http://localhost:9090/api/v1/query: context deadline exceeded"
          (opaqueError "context.deadlineExceededError"
                       "context deadline exceeded")).

End Demo.

(* ===================================================================== *)
(** ** Registration: [ProvideService] *)
(* ===================================================================== *)

Section Registration.
Context `{Ext : Externals}.

(** [datasource.InstanceFactoryFunc]. *)
Definition InstanceFactoryFunc : Type :=
  backend.DataSourceInstanceSettings → M (Instance * error).

(** What [ProvideService] calls outside the file: the SDK's
    [datasource.NewInstanceManager], [intervalv2.NewCalculator], and the
    plugin store's [AddWithFactory(ctx, pluginID, factory, resolver)].  The
    factory argument is [coreplugin.New] of the serve options whose
    [QueryDataHandler] is the service, and the resolver is
    [plugins.CoreDataSourcePathResolver(cfg, pluginID)]; both are given here
    by what they are built from.  Registration acts on the outside world. *)
Class Host : Type := {
  (** [*setting.Cfg] *)
  Cfg : Type;
  (** [plugins.Store] *)
  Store : Type;
  NewInstanceManager : InstanceFactoryFunc → InstanceManager;
  NewCalculator : Calculator;
  AddWithFactory :
    Store → string → Service → Cfg * string → World → error * World
}.
Context `{Hst : Host}.

Definition pluginID : string := "prometheus".

Definition ProvideService (cfg : Cfg) (httpClientProvider : Provider)
    (pluginStore : Store) : World → (option Service * error) * World :=
  fun w =>
  let im := NewInstanceManager (newInstanceSettings httpClientProvider) in
  let s := {| intervalCalculator := NewCalculator; im := im |} in
  let factory := s in
  let resolver := (cfg, pluginID) in
  match AddWithFactory pluginStore pluginID factory resolver w with
  | (Some err, w') => ((None, Some err), w')
  | (None, w') => ((Some s, None), w')
  end.

End Registration.

(* ===================================================================== *)
(** ** Two more concrete environments *)
(* ===================================================================== *)

Module DemoEdge.

(** As [Demo.ext], except that the HTTP options cannot be derived:
    [HTTPClientOptions] returns the zero options and an error. *)
Definition no_httpClientOptions (settings : backend.DataSourceInstanceSettings)
    : sdkhttpclient.Options * error :=
  ({| sdkhttpclient.BasicAuth := None;
      sdkhttpclient.SigV4 := None;
      sdkhttpclient.Headers := ∅;
      sdkhttpclient.Labels := ∅;
      sdkhttpclient.CustomOptions := ∅ |},
   errors_New "http options unavailable").

#[local] Instance no_options : Externals := {|
  World := nat;
  Client := string;
  Provider := unit;
  context_Context := unit;
  Calculator := unit;
  DataResponse := unit;
  json_Unmarshal := Demo.unmarshal;
  HTTPClientOptions := no_httpClientOptions;
  client_Create := Demo.create
|}.

Definition st0 : State := {| world := 0%nat; calls := [] |}.

(** An instance manager of [Demo.ext] that answers with neither an
    instance nor an error. *)
Definition nil_manager : @InstanceManager Demo.ext :=
  @Build_InstanceManager Demo.ext (fun _ w => ((None, None), w)).

Definition nil_service : @Service Demo.ext :=
  @Build_Service Demo.ext tt nil_manager.

End DemoEdge.

(* ===================================================================== *)
(** ** Error classification: [IsAPIError] and [ConvertAPIError] *)
(* ===================================================================== *)

Section Classifier.

(** [chain] follows [errors.Unwrap], and [errors_As_val] is the loop of
    [errors.As]: test the error at hand, then go on with what it unwraps
    to. *)
Lemma chain_Unwrap (e : errval) : chain e = e :: error_chain (errors_Unwrap e).
Proof. by destruct e. Qed.

Lemma errors_As_val_Unwrap (e : errval) :
  errors_As_val e
  = match e with
    | apiError a => Some a
    | _ => errors_As (errors_Unwrap e)
    end.
Proof. by destruct e. Qed.

(** A structured API error has no [Unwrap], so it can only close a chain:
    [errors.As] finds it exactly when the chain holds it. *)
Lemma errors_As_val_chain (e : errval) (a : apiv1_Error) :
  errors_As_val e = Some a ↔ apiError a ∈ chain e.
Proof.
  induction e as [s | msg err IH | a0 | typ text | typ text cause IH]; simpl.
  - rewrite list_elem_of_singleton. split; [discriminate | congruence].
  - rewrite IH, elem_of_cons. split; [auto | intros [? | ?]; [discriminate | done]].
  - rewrite list_elem_of_singleton. split; congruence.
  - rewrite list_elem_of_singleton. split; [discriminate | congruence].
  - rewrite IH, elem_of_cons. split; [auto | intros [? | ?]; [discriminate | done]].
Qed.

Lemma errors_As_chain (err : error) (a : apiv1_Error) :
  errors_As err = Some a ↔ chain_has_api err a.
Proof.
  unfold chain_has_api. destruct err as [e |]; simpl.
  - apply errors_As_val_chain.
  - rewrite elem_of_nil. split; [discriminate | tauto].
Qed.

Lemma errors_As_None (err : error) :
  errors_As err = None ↔ ∀ a, ¬ chain_has_api err a.
Proof.
  split.
  - intros HN a Ha. apply errors_As_chain in Ha. congruence.
  - intros Hno. destruct (errors_As err) as [a |] eqn:E; [| done].
    apply errors_As_chain in E. destruct (Hno a E).
Qed.

(** C5: for every error [err] (the [nil] one included): if its
    wrapped-error chain holds a structured API error [a], then
    [ConvertAPIError err] is a new plain error whose text is exactly
    [a]'s message, a colon and a space, and [a]'s detail; if the chain
    holds no such error, [ConvertAPIError err] is [err] itself. *)
Theorem ConvertAPIError_spec (err : error) :
  (∀ a, chain_has_api err a →
     ConvertAPIError err = Some (errorString (Msg a +:+ ": " +:+ Detail a))
     ∧ error_text (ConvertAPIError err) = Some (Msg a +:+ ": " +:+ Detail a))
  ∧ ((∀ a, ¬ chain_has_api err a) → ConvertAPIError err = err).
Proof.
  split.
  - intros a Ha. apply errors_As_chain in Ha.
    unfold ConvertAPIError. rewrite Ha. done.
  - intros Hno. apply errors_As_None in Hno.
    unfold ConvertAPIError. by rewrite Hno.
Qed.

(** C6: for every error [err], [IsAPIError err] is [true] exactly when the
    wrapped-error chain of [err] holds a structured API error.  The answer
    comes from the chain and not from the text: a plain error that prints
    the very text of a structured error is not one, and an error whose
    chain holds none (a transport, network or cancellation error) gives
    [false]. *)
Theorem IsAPIError_iff_chain (err : error) :
  (IsAPIError err = true ↔ ∃ a, chain_has_api err a)
  ∧ (∀ a, Error_text (errorString (Error_text (apiError a)))
            = Error_text (apiError a)
          ∧ IsAPIError (Some (errorString (Error_text (apiError a)))) = false
          ∧ IsAPIError (Some (apiError a)) = true)
  ∧ ((∀ a, ¬ chain_has_api err a) → IsAPIError err = false).
Proof.
  split; [| split].
  - unfold IsAPIError. destruct (errors_As err) as [a |] eqn:E.
    + split; [| done]. intros _. exists a. by apply errors_As_chain.
    + split; [discriminate |]. intros [a Ha].
      apply errors_As_chain in Ha. congruence.
  - intros a. done.
  - intros Hno. apply errors_As_None in Hno.
    unfold IsAPIError. by rewrite Hno.
Qed.

End Classifier.

(* ===================================================================== *)
(** ** The instance factory [newInstanceSettings] *)
(* ===================================================================== *)

Section Factory.
Context `{Ext : Externals}.
Implicit Types (p : Provider) (settings : backend.DataSourceInstanceSettings).
Implicit Types (jsonData : gmap string JSONValue) (st : State).
Implicit Types (httpCliOpts opts : sdkhttpclient.Options).

(** Run the factory up to the step that follows the two decoding steps. *)
Ltac decoded Hjson Hhttp :=
  unfold newInstanceSettings; rewrite Hjson; try rewrite Hhttp; cbn beta iota.

(** Resolve the call of [client.Create] in the goal. *)
Ltac created :=
  unfold bind, do_client_Create, extern, ret; cbn beta iota;
  match goal with
  | |- context [client_Create ?u ?o ?p ?j ?w] =>
      destruct (client_Create u o p j w) as [[? [?|]] ?] eqn:?
  end.

(** The time-interval step on a map without the key, or with a [null]. *)
Lemma map_index_absent jsonData :
  jsonData !! "timeInterval" = None ∨ jsonData !! "timeInterval" = Some JNull →
  map_index jsonData "timeInterval" = JNull.
Proof. unfold map_index. by intros [-> | ->]. Qed.

(** C2: take settings whose JSON decodes and whose decoded map has no
    [timeInterval] key, or maps it to [null].  Then every instance the
    factory returns has the empty string as its [TimeInterval]; and the
    factory does not stop at the time-interval step: once the HTTP options
    are obtained it calls [client.Create], fails only if that call fails
    (with its error), and otherwise returns the instance built from the
    client, with [TimeInterval] empty. *)
Theorem newInstanceSettings_missing_timeInterval p settings jsonData st :
  json_Unmarshal (backend.JSONData settings) ∅ = (jsonData, None) →
  jsonData !! "timeInterval" = None ∨ jsonData !! "timeInterval" = Some JNull →
  (∀ mdl err st',
     newInstanceSettings p settings st = (Returns (Some mdl, err), st') →
     TimeInterval mdl = "")
  ∧ (∀ httpCliOpts,
       HTTPClientOptions settings = (httpCliOpts, None) →
       ∃ opts client err w,
         client_Create (backend.URL settings) opts p jsonData (world st)
           = ((client, err), w)
         ∧ newInstanceSettings p settings st
           = (Returns
                match err with
                | Some e => (None, Some e)
                | None => (Some {| ID := backend.ID settings;
                                   URL := backend.URL settings;
                                   TimeInterval := "";
                                   promClient := client |}, None)
                end,
              {| world := w;
                 calls := calls st ++
                   [call_client_Create (backend.URL settings) opts jsonData] |})).
Proof.
  intros Hjson Hkey. apply map_index_absent in Hkey. split.
  - intros mdl err st'.
    destruct (HTTPClientOptions settings) as [o [e |]] eqn:Hhttp;
      decoded Hjson Hhttp; [discriminate |].
    rewrite Hkey. cbn. created; intros [= <- _ _]; done.
  - intros o Hhttp. decoded Hjson Hhttp. rewrite Hkey. cbn.
    created; eauto 10.
Qed.

(** C3, as the code has it: take settings whose JSON decodes to a map in
    which [timeInterval] is present and is neither [null] nor a string,
    and for which [HTTPClientOptions], which runs before the time-interval
    step, returns options and no error.  Then the factory returns no
    instance and the error [invalid time-interval provided], and leaves
    the outside world and the record of calls as they were, so
    [client.Create] is not called. *)
Theorem newInstanceSettings_invalid_timeInterval
    p settings jsonData httpCliOpts v st :
  json_Unmarshal (backend.JSONData settings) ∅ = (jsonData, None) →
  HTTPClientOptions settings = (httpCliOpts, None) →
  jsonData !! "timeInterval" = Some v →
  v ≠ JNull →
  (∀ s, v ≠ JString s) →
  newInstanceSettings p settings st
  = (Returns (None, Some (errorString "invalid time-interval provided")), st).
Proof.
  intros Hjson Hhttp Hkey Hnil Hstr. decoded Hjson Hhttp.
  unfold map_index. rewrite Hkey. simpl.
  destruct v as [| b | f | s | l | m]; try reflexivity.
  - by destruct Hnil.
  - by destruct (Hstr s).
Qed.

(** C4: take settings for which the factory reaches [client.Create] (the
    JSON decodes, the HTTP options are obtained, and [timeInterval] is
    missing, [null] or a string).  The options handed to [client.Create]
    are the host's options with one change: if they carry a SigV4 block,
    its [Service] is ["aps"] whatever the host had put there, and every
    other field of the block and of the options is as the host supplied
    it; if they carry no SigV4 block, they are the host's options
    untouched. *)
Theorem newInstanceSettings_SigV4_Service p settings jsonData httpCliOpts st :
  json_Unmarshal (backend.JSONData settings) ∅ = (jsonData, None) →
  HTTPClientOptions settings = (httpCliOpts, None) →
  jsonData !! "timeInterval" = None
  ∨ jsonData !! "timeInterval" = Some JNull
  ∨ (∃ s, jsonData !! "timeInterval" = Some (JString s)) →
  ∃ opts,
    calls (newInstanceSettings p settings st).2
      = (calls st ++ [call_client_Create (backend.URL settings) opts jsonData])%list
    ∧ (∀ c, sdkhttpclient.SigV4 httpCliOpts = Some c →
         ∃ c', sdkhttpclient.SigV4 opts = Some c'
           ∧ sdkhttpclient.Service c' = "aps"
           ∧ sdkhttpclient.AuthType c' = sdkhttpclient.AuthType c
           ∧ sdkhttpclient.Profile c' = sdkhttpclient.Profile c
           ∧ sdkhttpclient.AccessKey c' = sdkhttpclient.AccessKey c
           ∧ sdkhttpclient.SecretKey c' = sdkhttpclient.SecretKey c
           ∧ sdkhttpclient.AssumeRoleARN c' = sdkhttpclient.AssumeRoleARN c
           ∧ sdkhttpclient.ExternalID c' = sdkhttpclient.ExternalID c
           ∧ sdkhttpclient.Region c' = sdkhttpclient.Region c
           ∧ sdkhttpclient.BasicAuth opts = sdkhttpclient.BasicAuth httpCliOpts
           ∧ sdkhttpclient.Headers opts = sdkhttpclient.Headers httpCliOpts
           ∧ sdkhttpclient.Labels opts = sdkhttpclient.Labels httpCliOpts
           ∧ sdkhttpclient.CustomOptions opts
             = sdkhttpclient.CustomOptions httpCliOpts)
    ∧ (sdkhttpclient.SigV4 httpCliOpts = None → opts = httpCliOpts).
Proof.
  intros Hjson Hhttp Hkey. decoded Hjson Hhttp.
  eexists. split; [| split].
  - unfold map_index.
    destruct Hkey as [-> | [-> | [s ->]]]; cbn; created; reflexivity.
  - intros c ->. eexists. cbn. repeat split.
  - by intros ->.
Qed.

(** C8, as the code has it: an error of [client.Create] reaches the
    caller of the factory as it is, with no context added around it (the
    call is on record, the world is the one [client.Create] left); an
    error of [json.Unmarshal] is wrapped behind the text
    [error reading settings: ], and an error of [HTTPClientOptions] behind
    [error getting http options: ].  In all three cases the factory
    returns no instance and a non-nil error. *)
Theorem newInstanceSettings_error_propagation p settings st :
  (∀ jsonData e,
     json_Unmarshal (backend.JSONData settings) ∅ = (jsonData, Some e) →
     newInstanceSettings p settings st
     = (Returns (None, Some (wrapError
                   ("error reading settings: " +:+ Error_text e) e)), st))
  ∧ (∀ jsonData httpCliOpts e,
       json_Unmarshal (backend.JSONData settings) ∅ = (jsonData, None) →
       HTTPClientOptions settings = (httpCliOpts, Some e) →
       newInstanceSettings p settings st
       = (Returns (None, Some (wrapError
                     ("error getting http options: " +:+ Error_text e) e)), st))
  ∧ (∀ jsonData httpCliOpts,
       json_Unmarshal (backend.JSONData settings) ∅ = (jsonData, None) →
       HTTPClientOptions settings = (httpCliOpts, None) →
       jsonData !! "timeInterval" = None
       ∨ jsonData !! "timeInterval" = Some JNull
       ∨ (∃ s, jsonData !! "timeInterval" = Some (JString s)) →
       ∃ opts,
         calls (newInstanceSettings p settings st).2
           = (calls st ++ [call_client_Create (backend.URL settings) opts jsonData])%list
         ∧ ∀ client e w,
             client_Create (backend.URL settings) opts p jsonData (world st)
               = ((client, Some e), w) →
             newInstanceSettings p settings st
             = (Returns (None, Some e),
                {| world := w;
                   calls := calls st ++
                     [call_client_Create (backend.URL settings) opts jsonData] |})).
Proof.
  split; [| split].
  - intros jsonData e Hjson. by decoded Hjson Hjson.
  - intros jsonData o e Hjson Hhttp. by decoded Hjson Hhttp.
  - intros jsonData o Hjson Hhttp Hkey. decoded Hjson Hhttp.
    eexists. unfold map_index.
    destruct Hkey as [-> | [-> | [s ->]]]; cbn;
      (split; [created; reflexivity |]);
      intros client e w Hcreate;
      unfold bind, do_client_Create, extern, ret; cbn beta iota;
      rewrite Hcreate; reflexivity.
Qed.

End Factory.

(* ===================================================================== *)
(** ** The dispatcher [QueryData] *)
(* ===================================================================== *)

Section Dispatcher.
Context `{Ext : Externals} `{TSQ : !TimeSeriesQuery}.
Implicit Types (s : Service) (ctx : context_Context) (st : State).
Implicit Types (req : backend.QueryDataRequest).

(** [getDSInfo] is one call of [s.im.Get], followed by the copy of the
    instance. *)
Lemma getDSInfo_run s pluginCtx st :
  getDSInfo s pluginCtx st
  = let '((i, err), w) := Get (im s) pluginCtx (world st) in
    let st' := {| world := w; calls := calls st ++ [call_im_Get pluginCtx] |} in
    match err, i with
    | Some err, _ => (Returns (None, Some err), st')
    | None, Some instance => (Returns (Some instance, None), st')
    | None, None =>
        (Panics "interface conversion: interface {} is nil, not prometheus.DatasourceInfo",
         st')
    end.
Proof.
  unfold getDSInfo, bind, do_im_Get, extern, ret, panic.
  destruct (Get (im s) pluginCtx (world st)) as [[[i |] [err |]] w]; reflexivity.
Qed.

(** On a batch with a first query, [QueryData] is instance resolution
    followed, when it succeeds, by the time-series path. *)
Lemma QueryData_nonempty s ctx req q rest st :
  backend.Queries req = q :: rest →
  QueryData s ctx req st
  = match getDSInfo s (backend.PluginCtx req) st with
    | (Returns (dsInfo, None), st1) =>
        do_executeTimeSeriesQuery s ctx req dsInfo st1
    | (Returns (_, Some err), st1) => (Returns (None, Some err), st1)
    | (Panics msg, st1) => (Panics msg, st1)
    end.
Proof.
  intros Hq. unfold QueryData. rewrite Hq. cbn [length Nat.eqb lookup list_lookup].
  unfold bind at 1.
  destruct (getDSInfo s (backend.PluginCtx req) st) as [[[dsInfo [err |]] | msg] st1];
    [reflexivity | | reflexivity].
  unfold bind, ret, do_executeTimeSeriesQuery, extern.
  destruct (decide (backend.QueryType q = "timeSeriesQuery")) as [_ | _];
    destruct (executeTimeSeriesQuery s ctx req dsInfo (world st1)) as [[r e] w];
    reflexivity.
Qed.

(** C1: on a request whose [Queries] list is empty, [QueryData] returns the
    error [query contains no queries] (with an empty response) and leaves
    the state as it found it: the outside world is untouched and the record
    of calls has not grown, so neither [s.im.Get] nor [client.Create] was
    called. *)
Theorem QueryData_no_queries s ctx req st :
  backend.Queries req = [] →
  QueryData s ctx req st
  = (Returns (Some {| Responses := ∅ |},
              Some (errorString "query contains no queries")), st).
Proof. intros Hq. unfold QueryData. by rewrite Hq. Qed.

(** C7: on a request with at least one query, whatever the [QueryType] of
    its first query (["timeSeriesQuery"], the empty string, any other
    string) and of the others: if instance resolution returns [dsInfo]
    without error, [QueryData] calls [executeTimeSeriesQuery] on the
    request and [dsInfo] and returns what it returns; if resolution
    returns an error or panics, that is the outcome of [QueryData], and it
    is the same for every query type, since resolution does not read the
    queries. *)
Theorem QueryData_time_series_path s ctx req q rest st :
  backend.Queries req = q :: rest →
  match getDSInfo s (backend.PluginCtx req) st with
  | (Returns (dsInfo, None), st1) =>
      ∃ result err w,
        executeTimeSeriesQuery s ctx req dsInfo (world st1) = ((result, err), w)
        ∧ QueryData s ctx req st
          = (Returns (result, err),
             {| world := w;
                calls := calls st1 ++ [call_executeTimeSeriesQuery req dsInfo] |})
  | (Returns (_, Some err), st1) =>
      QueryData s ctx req st = (Returns (None, Some err), st1)
  | (Panics msg, st1) => QueryData s ctx req st = (Panics msg, st1)
  end.
Proof.
  intros Hq. rewrite (QueryData_nonempty s ctx req q rest st Hq).
  destruct (getDSInfo s (backend.PluginCtx req) st) as [[[dsInfo [err |]] | msg] st1];
    [reflexivity | | reflexivity].
  unfold do_executeTimeSeriesQuery, extern.
  destruct (executeTimeSeriesQuery s ctx req dsInfo (world st1)) as [[r e] w].
  by exists r, e, w.
Qed.

(** C10: on an empty batch [QueryData] returns a response that is not
    [nil], holding no responses, together with the error
    [query contains no queries]; on a non-empty batch for which [s.im.Get]
    returns an error, it returns the [nil] response together with that
    error.  So an error comes with a [nil] response in one case and with a
    non-[nil] one in the other. *)
Theorem QueryData_response_with_error s ctx req st :
  (backend.Queries req = [] →
   ∃ resp,
     (QueryData s ctx req st).1
       = Returns (Some resp, Some (errorString "query contains no queries"))
     ∧ Responses resp = ∅)
  ∧ (∀ i e w,
       backend.Queries req ≠ [] →
       Get (im s) (backend.PluginCtx req) (world st) = ((i, Some e), w) →
       (QueryData s ctx req st).1 = Returns (None, Some e)).
Proof.
  split.
  - intros Hq. eexists. unfold QueryData. rewrite Hq. by split.
  - intros i e w Hq Hget.
    destruct (backend.Queries req) as [| q rest] eqn:E; [done |].
    rewrite (QueryData_nonempty s ctx req q rest st E), getDSInfo_run, Hget.
    reflexivity.
Qed.

End Dispatcher.

(* ===================================================================== *)
(** ** The theorems at work on the concrete environment *)
(* ===================================================================== *)

Lemma network_timeout_no_api a : ¬ chain_has_api Demo.network_timeout a.
Proof.
  unfold chain_has_api. simpl. rewrite !elem_of_cons, elem_of_nil.
  intros [? | [? | []]]; discriminate.
Qed.

Lemma ConvertAPIError_spec_witness :
  chain_has_api Demo.wrapped_bad_data Demo.bad_data
  ∧ ConvertAPIError Demo.wrapped_bad_data
    = Some (errorString "bad_data: invalid expression")
  ∧ ConvertAPIError Demo.network_timeout = Demo.network_timeout.
Proof.
  assert (Hin : chain_has_api Demo.wrapped_bad_data Demo.bad_data).
  { unfold chain_has_api. simpl. rewrite !elem_of_cons. auto. }
  split; [exact Hin |]. split.
  - exact (proj1 (proj1 (ConvertAPIError_spec Demo.wrapped_bad_data) Demo.bad_data Hin)).
  - exact (proj2 (ConvertAPIError_spec Demo.network_timeout) network_timeout_no_api).
Defined.

Lemma IsAPIError_iff_chain_witness :
  IsAPIError Demo.wrapped_bad_data = true
  ∧ IsAPIError Demo.network_timeout = false
  ∧ IsAPIError (Some (errorString "bad_data: bad_data")) = false.
Proof.
  split; [| split].
  - apply (proj1 (IsAPIError_iff_chain Demo.wrapped_bad_data)).
    exists Demo.bad_data. unfold chain_has_api. simpl. rewrite !elem_of_cons. auto.
  - exact (proj2 (proj2 (IsAPIError_iff_chain Demo.network_timeout))
             network_timeout_no_api).
  - exact (proj1 (proj2 (proj1 (proj2 (IsAPIError_iff_chain None)) Demo.bad_data))).
Defined.


(** The factory on six data sources: no [timeInterval], a [null] one, a
    string, a number, a SigV4 block with the host's service name, and an
    empty URL. *)
Example newInstanceSettings_null_interval :
  TimeInterval <$> (Demo.uncached.(Get) (Demo.ctx_of (Some Demo.ds_null)) 0%nat).1.1
  = Some "".
Proof. vm_compute. reflexivity. Qed.

Example newInstanceSettings_string_interval :
  TimeInterval <$> (Demo.uncached.(Get) (Demo.ctx_of (Some Demo.ds_15s)) 0%nat).1.1
  = Some "15s".
Proof. vm_compute. reflexivity. Qed.

Lemma newInstanceSettings_missing_timeInterval_witness :
  json_Unmarshal (Externals := Demo.ext) (backend.JSONData Demo.ds_plain) ∅ = (∅, None)
  ∧ (∅ : gmap string JSONValue) !! "timeInterval" = None
  ∧ ∃ mdl,
      (newInstanceSettings (Ext := Demo.ext) tt Demo.ds_plain Demo.st0).1 = Returns (Some mdl, None)
      ∧ TimeInterval mdl = "".
Proof.
  split; [reflexivity |]. split; [reflexivity |].
  destruct (proj2 (newInstanceSettings_missing_timeInterval (Ext := Demo.ext)
                     tt Demo.ds_plain ∅ Demo.st0 eq_refl (or_introl eq_refl))
              (Demo.httpClientOptions Demo.ds_plain).1 eq_refl)
    as (opts & client & err & w & Hcreate & Hrun).
  vm_compute in Hcreate. injection Hcreate as <- <- <-.
  rewrite Hrun. eexists. split; reflexivity.
Defined.

Lemma newInstanceSettings_invalid_timeInterval_witness :
  json_Unmarshal (Externals := Demo.ext) (backend.JSONData Demo.ds_bad_interval) ∅
    = (<["timeInterval" := JNumber 5]> ∅, None)
  ∧ HTTPClientOptions (Externals := Demo.ext) Demo.ds_bad_interval
    = ((Demo.httpClientOptions Demo.ds_bad_interval).1, None)
  ∧ (<["timeInterval" := JNumber 5]> ∅ : gmap string JSONValue) !! "timeInterval"
    = Some (JNumber 5)
  ∧ newInstanceSettings (Ext := Demo.ext) tt Demo.ds_bad_interval Demo.st0
    = (Returns (None, Some (errorString "invalid time-interval provided")),
       Demo.st0).
Proof.
  split; [reflexivity |]. split; [reflexivity |]. split; [reflexivity |].
  apply (newInstanceSettings_invalid_timeInterval (Ext := Demo.ext)
           tt Demo.ds_bad_interval (<["timeInterval" := JNumber 5]> ∅)
           (Demo.httpClientOptions Demo.ds_bad_interval).1
           (JNumber 5) Demo.st0 eq_refl eq_refl eq_refl);
    discriminate.
Defined.

(** C3, as stated, fails: the settings decode to a map whose
    [timeInterval] is the number 5, but [HTTPClientOptions] returns an
    error; the factory then returns that error, wrapped, and not
    [invalid time-interval provided]. *)
Lemma newInstanceSettings_invalid_timeInterval_options_first :
  json_Unmarshal (Externals := DemoEdge.no_options)
    (backend.JSONData Demo.ds_bad_interval) ∅
    = (<["timeInterval" := JNumber 5]> ∅, None)
  ∧ (<["timeInterval" := JNumber 5]> ∅ : gmap string JSONValue) !! "timeInterval"
    = Some (JNumber 5)
  ∧ newInstanceSettings (Ext := DemoEdge.no_options) tt Demo.ds_bad_interval
      DemoEdge.st0
    = (Returns (None, Some (wrapError
                  "error getting http options: http options unavailable"
                  (errorString "http options unavailable"))),
       DemoEdge.st0)
  ∧ newInstanceSettings (Ext := DemoEdge.no_options) tt Demo.ds_bad_interval
      DemoEdge.st0
    ≠ (Returns (None, Some (errorString "invalid time-interval provided")),
       DemoEdge.st0).
Proof.
  assert (Hrun : newInstanceSettings (Ext := DemoEdge.no_options) tt
                   Demo.ds_bad_interval DemoEdge.st0
                 = (Returns (None, Some (wrapError
                      "error getting http options: http options unavailable"
                      (errorString "http options unavailable"))),
                    DemoEdge.st0)) by reflexivity.
  split; [reflexivity |]. split; [reflexivity |]. split; [exact Hrun |].
  rewrite Hrun. discriminate.
Qed.

Lemma newInstanceSettings_SigV4_Service_witness :
  json_Unmarshal (Externals := Demo.ext) (backend.JSONData Demo.ds_sigv4) ∅
    = (∅, None)
  ∧ (∃ c, sdkhttpclient.SigV4 (Demo.httpClientOptions Demo.ds_sigv4).1 = Some c
          ∧ sdkhttpclient.Service c = "es")
  ∧ ∃ opts c',
      calls (newInstanceSettings (Ext := Demo.ext) tt Demo.ds_sigv4 Demo.st0).2
        = [call_client_Create "https://aps-workspaces.eu-west-1.amazonaws.com"
             opts ∅]
      ∧ sdkhttpclient.SigV4 opts = Some c'
      ∧ sdkhttpclient.Service c' = "aps"
      ∧ sdkhttpclient.SecretKey c' = "secret".
Proof.
  split; [reflexivity |]. split; [eexists; split; reflexivity |].
  destruct (newInstanceSettings_SigV4_Service (Ext := Demo.ext)
              tt Demo.ds_sigv4 ∅ (Demo.httpClientOptions Demo.ds_sigv4).1
              Demo.st0 eq_refl eq_refl (or_introl eq_refl))
    as [opts [Hcalls [Hsig _]]].
  destruct (Hsig _ eq_refl) as [c' (Hc' & Hsvc & _ & _ & _ & Hkey & _)].
  exists opts, c'. repeat split; [exact Hcalls | exact Hc' | exact Hsvc | exact Hkey].
Defined.

(** C8, as stated, fails: for the data source without a URL,
    [client.Create] fails with [no URL specified], and the factory returns
    that very error, which is not an error wrapping another one. *)
Lemma newInstanceSettings_create_error_not_wrapped :
  client_Create (Externals := Demo.ext) (backend.URL Demo.ds_no_url)
    (Demo.httpClientOptions Demo.ds_no_url).1 tt ∅ (world Demo.st0)
    = ((None, Some (errorString "no URL specified")), 0%nat)
  ∧ newInstanceSettings (Ext := Demo.ext) tt Demo.ds_no_url Demo.st0
    = (Returns (None, Some (errorString "no URL specified")),
       Demo.state 0 [call_client_Create ""
                       (Demo.httpClientOptions Demo.ds_no_url).1 ∅])
  ∧ ¬ (∃ msg e,
         (newInstanceSettings (Ext := Demo.ext) tt Demo.ds_no_url Demo.st0).1
         = Returns (None, Some (wrapError msg e))).
Proof.
  assert (Hrun : newInstanceSettings (Ext := Demo.ext) tt Demo.ds_no_url Demo.st0
                 = (Returns (None, Some (errorString "no URL specified")),
                    Demo.state 0 [call_client_Create ""
                                    (Demo.httpClientOptions Demo.ds_no_url).1 ∅]))
    by reflexivity.
  split; [reflexivity |]. split; [exact Hrun |].
  intros (msg & e & H). rewrite Hrun in H. discriminate H.
Qed.

Lemma newInstanceSettings_error_propagation_witness :
  json_Unmarshal (Externals := Demo.ext) (backend.JSONData Demo.ds_no_url) ∅
    = (∅, None)
  ∧ HTTPClientOptions (Externals := Demo.ext) Demo.ds_no_url
    = ((Demo.httpClientOptions Demo.ds_no_url).1, None)
  ∧ ∃ opts,
      client_Create (Externals := Demo.ext) "" opts tt ∅ 0%nat
        = ((None, Some (errorString "no URL specified")), 0%nat)
      ∧ newInstanceSettings (Ext := Demo.ext) tt Demo.ds_no_url Demo.st0
        = (Returns (None, Some (errorString "no URL specified")),
           Demo.state 0 [call_client_Create "" opts ∅]).
Proof.
  split; [reflexivity |]. split; [reflexivity |].
  destruct (proj2 (proj2 (newInstanceSettings_error_propagation (Ext := Demo.ext)
              tt Demo.ds_no_url Demo.st0))
              ∅ (Demo.httpClientOptions Demo.ds_no_url).1
              eq_refl eq_refl (or_introl eq_refl))
    as [opts [_ Hfail]].
  exists opts. split; [reflexivity |].
  exact (Hfail None (errorString "no URL specified") 0%nat eq_refl).
Defined.

(** The dispatcher on three requests: an empty batch, a batch of one
    query with no query type, and a batch without data-source settings. *)
Lemma QueryData_no_queries_witness :
  backend.Queries (Demo.request (Some Demo.ds_plain) []) = []
  ∧ QueryData (TSQ := Demo.tsq) Demo.service tt
      (Demo.request (Some Demo.ds_plain) []) Demo.st0
    = (Returns (Some {| Responses := ∅ |},
                Some (errorString "query contains no queries")), Demo.st0).
Proof.
  split; [reflexivity |].
  exact (QueryData_no_queries (TSQ := Demo.tsq) Demo.service tt
           (Demo.request (Some Demo.ds_plain) []) Demo.st0 eq_refl).
Defined.

Lemma QueryData_time_series_path_witness :
  let req := Demo.request (Some Demo.ds_plain) [Demo.query "A" ""] in
  backend.Queries req = [Demo.query "A" ""]
  ∧ ∃ dsInfo result err w,
      (getDSInfo Demo.service (backend.PluginCtx req) Demo.st0).1
        = Returns (dsInfo, None)
      ∧ executeTimeSeriesQuery (TimeSeriesQuery := Demo.tsq)
          Demo.service tt req dsInfo 1%nat = ((result, err), w)
      ∧ QueryData (TSQ := Demo.tsq) Demo.service tt req Demo.st0
        = (Returns (result, err),
           Demo.state w [call_im_Get (backend.PluginCtx req);
                         call_executeTimeSeriesQuery req dsInfo]).
Proof.
  intros req. split; [reflexivity |].
  pose proof (QueryData_time_series_path (TSQ := Demo.tsq) Demo.service tt req
                (Demo.query "A" "") [] Demo.st0 eq_refl) as Hpath.
  rewrite getDSInfo_run in Hpath. cbn -[QueryData req] in Hpath.
  destruct Hpath as (result & err & w & Hexec & Hrun).
  eexists _, result, err, w. split; [| split; [exact Hexec | exact Hrun]].
  rewrite getDSInfo_run. reflexivity.
Defined.

Lemma QueryData_response_with_error_witness :
  (∃ resp err,
     (QueryData (TSQ := Demo.tsq) Demo.service tt
        (Demo.request (Some Demo.ds_plain) []) Demo.st0).1
     = Returns (Some resp, Some err))
  ∧ (∃ err,
       (QueryData (TSQ := Demo.tsq) Demo.service tt
          (Demo.request None [Demo.query "A" "timeSeriesQuery"]) Demo.st0).1
       = Returns (None, Some err)).
Proof.
  split.
  - destruct (proj1 (QueryData_response_with_error (TSQ := Demo.tsq)
                       Demo.service tt (Demo.request (Some Demo.ds_plain) [])
                       Demo.st0) eq_refl) as [resp [Hrun _]].
    eexists _, _. exact Hrun.
  - eexists.
    apply (proj2 (QueryData_response_with_error (TSQ := Demo.tsq)
                    Demo.service tt
                    (Demo.request None [Demo.query "A" "timeSeriesQuery"])
                    Demo.st0) None _ 0%nat); [discriminate | reflexivity].
Defined.

(* ===================================================================== *)
(** ** Further properties of the classifier *)
(* ===================================================================== *)

Section ClassifierLaws.

(** X1: converting twice is converting once: the error [ConvertAPIError]
    builds is a plain one, which a second conversion returns as it is. *)
Theorem ConvertAPIError_idempotent (err : error) :
  ConvertAPIError (ConvertAPIError err) = ConvertAPIError err.
Proof.
  unfold ConvertAPIError at 2 3.
  destruct (errors_As err) as [a |] eqn:E.
  - reflexivity.
  - unfold ConvertAPIError. by rewrite E.
Qed.

(** X2: a converted error is never recognised as an API error: whatever
    [err] is, [IsAPIError] answers [false] on [ConvertAPIError err], so the
    test has to be made before the conversion. *)
Theorem IsAPIError_after_Convert (err : error) :
  IsAPIError (ConvertAPIError err) = false.
Proof.
  unfold ConvertAPIError.
  destruct (errors_As err) as [a |] eqn:E.
  - reflexivity.
  - unfold IsAPIError. by rewrite E.
Qed.

(** X3: [ConvertAPIError] returns its argument exactly when [IsAPIError]
    is [false] on it; on an API error it always returns a different
    error. *)
Theorem ConvertAPIError_identity_iff (err : error) :
  ConvertAPIError err = err ↔ IsAPIError err = false.
Proof.
  unfold ConvertAPIError, IsAPIError.
  destruct (errors_As err) as [a |] eqn:E.
  - split; [| discriminate]. intros <-. discriminate E.
  - done.
Qed.

(** X4: conversion keeps the [nil] test: the result is [nil] exactly when
    the argument is. *)
Theorem ConvertAPIError_nil_iff (err : error) :
  ConvertAPIError err = None ↔ err = None.
Proof.
  unfold ConvertAPIError.
  destruct (errors_As err) as [a |] eqn:E.
  - split; [discriminate |]. intros ->. discriminate E.
  - done.
Qed.

(** X5: the converted error depends on the structured error alone: two
    errors whose chains hold the same API error convert to the same error,
    whatever wraps it; the context added by the wrappers is dropped. *)
Theorem ConvertAPIError_drops_context (err1 err2 : error) (a : apiv1_Error) :
  chain_has_api err1 a →
  chain_has_api err2 a →
  ConvertAPIError err1 = ConvertAPIError err2.
Proof.
  intros H1 H2. apply errors_As_chain in H1, H2.
  unfold ConvertAPIError. by rewrite H1, H2.
Qed.

End ClassifierLaws.

(* ===================================================================== *)
(** ** Further properties of the instance factory *)
(* ===================================================================== *)

(** Split a run of the factory along its steps: the two decoding steps,
    the value under [timeInterval], and the answer of [client.Create]. *)
Ltac factory_run p settings st Hjson Hhttp Hkey Hcreate :=
  unfold newInstanceSettings;
  destruct (json_Unmarshal (backend.JSONData settings) ∅)
    as [?jsonData [?e |]] eqn:Hjson; cbn beta iota;
  [| destruct (HTTPClientOptions settings) as [?opts [?e |]] eqn:Hhttp;
     cbn beta iota;
     [| unfold map_index;
        match goal with
        | |- context [?m !! "timeInterval"] =>
            destruct (m !! "timeInterval") as [[| ?b | ?f | ?s | ?l | ?o] |]
              eqn:Hkey
        end; cbn;
        try (unfold bind, do_client_Create, extern, ret; cbn beta iota;
             match goal with
             | |- context [client_Create ?a1 ?a2 ?a3 ?a4 ?a5] =>
                 destruct (client_Create a1 a2 a3 a4 a5)
                   as [[?client [?e |]] ?w] eqn:Hcreate
             end)]].

Section FactoryLaws.
Context `{Ext : Externals}.
Implicit Types (p : Provider) (settings : backend.DataSourceInstanceSettings).
Implicit Types (st : State).

(** X6: when the factory returns, it returns either an instance with a
    [nil] error or a [nil] instance with an error, never both and never
    neither. *)
Theorem newInstanceSettings_instance_xor_error p settings st r st' :
  newInstanceSettings p settings st = (Returns r, st') →
  (∃ mdl, r = (Some mdl, None)) ∨ (∃ e, r = (None, Some e)).
Proof.
  revert r st'.
  factory_run p settings st Hjson Hhttp Hkey Hcreate; intros r st' Hrun;
    injection Hrun as <- <-; eauto.
Qed.

(** X7: when the factory returns, it has called [client.Create] at most
    once, and that is its only call that acts on the outside world.
    Either it returns no instance and the outside world and the record of
    calls are as it found them, or the JSON decoded and [client.Create] was
    called once, on the URL of the settings and the decoded map, and the
    world is the one that call left. *)
Theorem newInstanceSettings_one_call p settings st r st' :
  newInstanceSettings p settings st = (Returns r, st') →
  (r.1 = None ∧ st' = st)
  ∨ ∃ jsonData opts,
      json_Unmarshal (backend.JSONData settings) ∅ = (jsonData, None)
      ∧ st' = {| world :=
                   (client_Create (backend.URL settings) opts p jsonData
                      (world st)).2;
                 calls := calls st ++
                   [call_client_Create (backend.URL settings) opts jsonData] |}.
Proof.
  revert r st'.
  factory_run p settings st Hjson Hhttp Hkey Hcreate; intros r st' Hrun;
    injection Hrun as <- <-;
    first [ by left | right; do 2 eexists; split; [reflexivity |];
                      rewrite Hcreate; reflexivity ].
Qed.

(** X8: where an error of the factory comes from.  An error it returns
    is one of four: the error of [json.Unmarshal] behind
    [error reading settings: ]; the error of [HTTPClientOptions] behind
    [error getting http options: ]; [invalid time-interval provided], when
    the decoded map holds under [timeInterval] a value that is neither
    [null] nor a string; or the error [client.Create] returned, as it is.
    In the first three cases nothing was called outside the file. *)
Theorem newInstanceSettings_error_cases p settings st e st' :
  newInstanceSettings p settings st = (Returns (None, Some e), st') →
  (∃ m e0,
     json_Unmarshal (backend.JSONData settings) ∅ = (m, Some e0)
     ∧ e = wrapError ("error reading settings: " +:+ Error_text e0) e0
     ∧ st' = st)
  ∨ (∃ o e0,
       HTTPClientOptions settings = (o, Some e0)
       ∧ e = wrapError ("error getting http options: " +:+ Error_text e0) e0
       ∧ st' = st)
  ∨ (∃ m v,
       json_Unmarshal (backend.JSONData settings) ∅ = (m, None)
       ∧ m !! "timeInterval" = Some v
       ∧ v ≠ JNull ∧ (∀ s, v ≠ JString s)
       ∧ e = errorString "invalid time-interval provided"
       ∧ st' = st)
  ∨ (∃ m opts client w,
       json_Unmarshal (backend.JSONData settings) ∅ = (m, None)
       ∧ client_Create (backend.URL settings) opts p m (world st)
         = ((client, Some e), w)
       ∧ st' = {| world := w;
                  calls := calls st ++
                    [call_client_Create (backend.URL settings) opts m] |}).
Proof.
  revert e st'.
  factory_run p settings st Hjson Hhttp Hkey Hcreate; intros e' st' Hrun;
    try discriminate Hrun; injection Hrun as <- <-;
    first [ left; by eauto
          | right; left; by eauto
          | do 3 right; by eauto 10
          | right; right; left; do 2 eexists;
            repeat split; eauto; discriminate ].
Qed.

(** X9: what a returned instance holds.  Its error is [nil]; [ID] and
    [URL] are those of the settings; [TimeInterval] is the string the
    decoded map holds under [timeInterval], carried over as it is, or the
    empty string when the key is missing or [null]; and [promClient] is the
    client that the one call of [client.Create] returned without error. *)
Theorem newInstanceSettings_instance p settings st mdl err st' :
  newInstanceSettings p settings st = (Returns (Some mdl, err), st') →
  err = None
  ∧ ID mdl = backend.ID settings
  ∧ URL mdl = backend.URL settings
  ∧ ∃ m,
      json_Unmarshal (backend.JSONData settings) ∅ = (m, None)
      ∧ (m !! "timeInterval" = Some (JString (TimeInterval mdl))
         ∨ (TimeInterval mdl = ""
            ∧ (m !! "timeInterval" = None ∨ m !! "timeInterval" = Some JNull)))
      ∧ ∃ opts w,
          client_Create (backend.URL settings) opts p m (world st)
            = ((promClient mdl, None), w)
          ∧ st' = {| world := w;
                     calls := calls st ++
                       [call_client_Create (backend.URL settings) opts m] |}.
Proof.
  revert mdl err st'.
  factory_run p settings st Hjson Hhttp Hkey Hcreate; intros mdl err st' Hrun;
    try discriminate Hrun; injection Hrun as <- <- <-; cbn;
    (split; [done |]); (split; [done |]); (split; [done |]);
    eexists; (split; [reflexivity |]); (split; [eauto | eauto]).
Qed.

End FactoryLaws.

(* ===================================================================== *)
(** ** Further properties of the dispatcher and of registration *)
(* ===================================================================== *)

Section DispatcherLaws.
Context `{Ext : Externals} `{TSQ : !TimeSeriesQuery}.
Implicit Types (s : Service) (ctx : context_Context) (st : State).
Implicit Types (req : backend.QueryDataRequest).

(** X10: when [getDSInfo] returns, it has called [s.im.Get] once, and it
    returns either a pointer to the instance with a [nil] error, or a [nil]
    pointer with the error of [s.im.Get] as it is; an instance that
    [s.im.Get] returns together with an error is dropped. *)
Theorem getDSInfo_result s pluginCtx st d e st' :
  getDSInfo s pluginCtx st = (Returns (d, e), st') →
  st' = {| world := (Get (im s) pluginCtx (world st)).2;
           calls := calls st ++ [call_im_Get pluginCtx] |}
  ∧ ((∃ i, d = Some i ∧ e = None
           ∧ (Get (im s) pluginCtx (world st)).1 = (Some i, None))
     ∨ (∃ err, d = None ∧ e = Some err
           ∧ (Get (im s) pluginCtx (world st)).1.2 = Some err)).
Proof.
  rewrite getDSInfo_run.
  destruct (Get (im s) pluginCtx (world st)) as [[[i |] [err |]] w]; cbn;
    intros [= <- <- <-]; (split; [reflexivity |]); eauto.
Qed.

(** X11: if the batch is not empty and [s.im.Get] returns a [nil]
    instance together with a [nil] error, [QueryData] panics: the type
    assertion of [getDSInfo] fails, so no response and no error are
    returned, and the time-series path is not entered; the one call on
    record is that of [s.im.Get]. *)
Theorem QueryData_nil_instance_panics s ctx req st w :
  backend.Queries req ≠ [] →
  Get (im s) (backend.PluginCtx req) (world st) = ((None, None), w) →
  ∃ msg,
    QueryData s ctx req st
    = (Panics msg,
       {| world := w;
          calls := calls st ++ [call_im_Get (backend.PluginCtx req)] |}).
Proof.
  intros Hq Hget.
  destruct (backend.Queries req) as [| q rest] eqn:E; [done |].
  rewrite (QueryData_nonempty s ctx req q rest st E), getDSInfo_run, Hget.
  eexists. reflexivity.
Qed.

(** X12: the calls [QueryData] makes outside the file, in order: none on
    an empty batch; otherwise one call of [s.im.Get] on the plugin context
    of the request, followed, exactly when that call returned an instance
    and no error, by one call of [executeTimeSeriesQuery] on the whole
    request and that instance.  The number of queries in the batch does not
    change the number of calls. *)
Theorem QueryData_calls s ctx req st :
  calls (QueryData s ctx req st).2
  = (calls st ++
     match backend.Queries req with
     | [] => []
     | _ :: _ =>
         call_im_Get (backend.PluginCtx req) ::
         match (Get (im s) (backend.PluginCtx req) (world st)).1 with
         | (Some i, None) => [call_executeTimeSeriesQuery req (Some i)]
         | _ => []
         end
     end)%list.
Proof.
  destruct (backend.Queries req) as [| q rest] eqn:Hq.
  - unfold QueryData. rewrite Hq. cbn.
    by rewrite app_nil_r.
  - rewrite (QueryData_nonempty s ctx req q rest st Hq), getDSInfo_run.
    unfold do_executeTimeSeriesQuery, extern.
    destruct (Get (im s) (backend.PluginCtx req) (world st))
      as [[[i |] [err |]] w]; cbn; try reflexivity.
    destruct (executeTimeSeriesQuery _ _ _ _ _) as [[r e] w']. cbn.
    by rewrite <- app_assoc.
Qed.

End DispatcherLaws.

Section RegistrationLaws.
Context `{Ext : Externals} `{Hst : !Host}.

(** X13: [ProvideService] registers the plugin under the identifier
    [prometheus], with the service it has built as the handler.  If the
    store refuses, it returns a [nil] service and the error of the store
    as it is; otherwise it returns that service and a [nil] error, and the
    instance manager of the service is the one built over the factory of
    this file for the given HTTP client provider.  The world afterwards is
    the one registration left. *)
Theorem ProvideService_service_xor_error
    (cfg : Cfg) (p : Provider) (store : Store) (w : World) :
  ∃ s,
    im s = NewInstanceManager (newInstanceSettings p)
    ∧ (ProvideService cfg p store w).2
      = (AddWithFactory store "prometheus" s (cfg, "prometheus") w).2
    ∧ match (AddWithFactory store "prometheus" s (cfg, "prometheus") w).1 with
      | Some e => (ProvideService cfg p store w).1 = (None, Some e)
      | None => (ProvideService cfg p store w).1 = (Some s, None)
      end.
Proof.
  exists {| intervalCalculator := NewCalculator;
            im := NewInstanceManager (newInstanceSettings p) |}.
  split; [| split].
  - reflexivity.
  - unfold ProvideService, pluginID.
    by destruct (AddWithFactory _ _ _ _ _) as [[e |] w'].
  - unfold ProvideService, pluginID.
    by destruct (AddWithFactory _ _ _ _ _) as [[e |] w'].
Qed.

End RegistrationLaws.

(** The further properties at work on the concrete environment. *)
Lemma ConvertAPIError_drops_context_witness :
  chain_has_api Demo.wrapped_bad_data Demo.bad_data
  ∧ chain_has_api (Some (apiError Demo.bad_data)) Demo.bad_data
  ∧ ConvertAPIError Demo.wrapped_bad_data
    = ConvertAPIError (Some (apiError Demo.bad_data)).
Proof.
  assert (H1 : chain_has_api Demo.wrapped_bad_data Demo.bad_data).
  { unfold chain_has_api. simpl. rewrite !elem_of_cons. auto. }
  assert (H2 : chain_has_api (Some (apiError Demo.bad_data)) Demo.bad_data).
  { unfold chain_has_api. simpl. rewrite !elem_of_cons. auto. }
  split; [exact H1 |]. split; [exact H2 |].
  exact (ConvertAPIError_drops_context _ _ _ H1 H2).
Defined.

Lemma newInstanceSettings_error_cases_witness :
  newInstanceSettings (Ext := Demo.ext) tt Demo.ds_no_url Demo.st0
  = (Returns (None, Some (errorString "no URL specified")),
     Demo.state 0 [call_client_Create ""
                     (Demo.httpClientOptions Demo.ds_no_url).1 ∅])
  ∧ ∃ m opts client w,
      client_Create (Externals := Demo.ext) "" opts tt m 0%nat
      = ((client, Some (errorString "no URL specified")), w).
Proof.
  assert (Hrun : newInstanceSettings (Ext := Demo.ext) tt Demo.ds_no_url Demo.st0
                 = (Returns (None, Some (errorString "no URL specified")),
                    Demo.state 0 [call_client_Create ""
                                    (Demo.httpClientOptions Demo.ds_no_url).1 ∅])).
  { reflexivity. }
  split; [exact Hrun |].
  destruct (newInstanceSettings_error_cases (Ext := Demo.ext) _ _ _ _ _ Hrun)
    as [(m & e0 & Hjson & _) | [(o & e0 & Hhttp & _) |
        [(m & v & _ & _ & _ & _ & He & _) | (m & opts & client & w & _ & Hc & _)]]].
  - vm_compute in Hjson. discriminate Hjson.
  - vm_compute in Hhttp. discriminate Hhttp.
  - discriminate He.
  - exists m, opts, client, w. exact Hc.
Defined.

Lemma newInstanceSettings_instance_witness :
  let mdl := @Build_DatasourceInfo Demo.ext 7 "http://localhost:9090" "15s"
               (Some "http://localhost:9090") in
  newInstanceSettings (Ext := Demo.ext) tt Demo.ds_15s Demo.st0
    = (Returns (Some mdl, None),
       Demo.state 1 [call_client_Create "http://localhost:9090"
                       (Demo.httpClientOptions Demo.ds_15s).1
                       (<["timeInterval" := JString "15s"]> ∅)])
  ∧ ID mdl = backend.ID Demo.ds_15s
  ∧ ∃ m,
      json_Unmarshal (Externals := Demo.ext) (backend.JSONData Demo.ds_15s) ∅
        = (m, None)
      ∧ m !! "timeInterval" = Some (JString "15s").
Proof.
  intros mdl.
  assert (Hrun : newInstanceSettings (Ext := Demo.ext) tt Demo.ds_15s Demo.st0
                 = (Returns (Some mdl, None),
                    Demo.state 1 [call_client_Create "http://localhost:9090"
                                    (Demo.httpClientOptions Demo.ds_15s).1
                                    (<["timeInterval" := JString "15s"]> ∅)])).
  { reflexivity. }
  split; [exact Hrun |].
  destruct (newInstanceSettings_instance (Ext := Demo.ext) _ _ _ _ _ _ Hrun)
    as (_ & Hid & _ & m & Hjson & Hkey & _).
  split; [exact Hid |].
  exists m. split; [exact Hjson |].
  destruct Hkey as [Hkey | [Hempty _]]; [exact Hkey | discriminate Hempty].
Defined.

Lemma getDSInfo_result_witness :
  ∃ e st',
    getDSInfo Demo.service (Demo.ctx_of None) Demo.st0
      = (Returns (None, Some e), st')
    ∧ st' = Demo.state 0 [call_im_Get (Demo.ctx_of None)].
Proof.
  assert (Hrun : ∃ e st',
             getDSInfo Demo.service (Demo.ctx_of None) Demo.st0
             = (Returns (None, Some e), st')).
  { eexists _, _. rewrite getDSInfo_run. reflexivity. }
  destruct Hrun as (e & st' & Hrun).
  exists e, st'. split; [exact Hrun |].
  exact (proj1 (getDSInfo_result _ _ _ _ _ _ Hrun)).
Defined.

Lemma newInstanceSettings_instance_xor_error_witness :
  let mdl := @Build_DatasourceInfo Demo.ext 7 "http://localhost:9090" ""
               (Some "http://localhost:9090") in
  newInstanceSettings (Ext := Demo.ext) tt Demo.ds_plain Demo.st0
    = (Returns (Some mdl, None),
       Demo.state 1 [call_client_Create "http://localhost:9090"
                       (Demo.httpClientOptions Demo.ds_plain).1 ∅])
  ∧ ((∃ mdl', (Some mdl, None) = (Some mdl', @None errval))
     ∨ (∃ e, (Some mdl, @None errval) = (None, Some e))).
Proof.
  intros mdl.
  assert (Hrun : newInstanceSettings (Ext := Demo.ext) tt Demo.ds_plain Demo.st0
                 = (Returns (Some mdl, None),
                    Demo.state 1 [call_client_Create "http://localhost:9090"
                                    (Demo.httpClientOptions Demo.ds_plain).1 ∅]))
    by reflexivity.
  split; [exact Hrun |].
  exact (newInstanceSettings_instance_xor_error (Ext := Demo.ext) _ _ _ _ _ Hrun).
Defined.

Lemma newInstanceSettings_one_call_witness :
  let mdl := @Build_DatasourceInfo Demo.ext 7 "http://localhost:9090" ""
               (Some "http://localhost:9090") in
  newInstanceSettings (Ext := Demo.ext) tt Demo.ds_plain Demo.st0
    = (Returns (Some mdl, None),
       Demo.state 1 [call_client_Create "http://localhost:9090"
                       (Demo.httpClientOptions Demo.ds_plain).1 ∅])
  ∧ ∃ jsonData opts,
      json_Unmarshal (Externals := Demo.ext) (backend.JSONData Demo.ds_plain) ∅
        = (jsonData, None)
      ∧ Demo.state 1 [call_client_Create "http://localhost:9090"
                        (Demo.httpClientOptions Demo.ds_plain).1 ∅]
        = Demo.state
            (client_Create (Externals := Demo.ext) "http://localhost:9090"
               opts tt jsonData 0%nat).2
            [call_client_Create "http://localhost:9090" opts jsonData].
Proof.
  intros mdl.
  assert (Hrun : newInstanceSettings (Ext := Demo.ext) tt Demo.ds_plain Demo.st0
                 = (Returns (Some mdl, None),
                    Demo.state 1 [call_client_Create "http://localhost:9090"
                                    (Demo.httpClientOptions Demo.ds_plain).1 ∅]))
    by reflexivity.
  split; [exact Hrun |].
  destruct (newInstanceSettings_one_call (Ext := Demo.ext) _ _ _ _ _ Hrun)
    as [[Hnone _] | (jsonData & opts & Hjson & Hst)].
  - discriminate Hnone.
  - exists jsonData, opts. split; [exact Hjson | exact Hst].
Defined.

Lemma QueryData_nil_instance_panics_witness :
  let req := Demo.request (Some Demo.ds_plain) [Demo.query "A" ""] in
  backend.Queries req ≠ []
  ∧ Get DemoEdge.nil_manager (backend.PluginCtx req) 0%nat = ((None, None), 0%nat)
  ∧ ∃ msg,
      QueryData (TSQ := Demo.tsq) DemoEdge.nil_service tt req Demo.st0
      = (Panics msg, Demo.state 0 [call_im_Get (backend.PluginCtx req)]).
Proof.
  intros req.
  assert (Hq : backend.Queries req ≠ []) by discriminate.
  split; [exact Hq |]. split; [reflexivity |].
  exact (QueryData_nil_instance_panics (TSQ := Demo.tsq) DemoEdge.nil_service
           tt req Demo.st0 0%nat Hq eq_refl).
Defined.
